(** * V2G consulting engine: revenue, cost, ROI, scoring and combination

    A shallow embedding of the computational core of the repository:
    - [v2g_business_analyzer.py]  (class [V2GBusinessAnalyzer]),
    - [v2g_score_analyzer.py]     (class [V2GScoreAnalyzer]),
    - [v2g_integrated_analyzer.py] (method [_create_integrated_comparison]).

    Number model.  Python [int] is [Z].  Python [float] is modelled by the
    exact rationals [Q]: every decimal literal of the source denotes the
    decimal it is written as, and [+ - * /] are exact.  Binary64 rounding is
    therefore abstracted away; everything else the source does with numbers
    is kept: [/] raises [ZeroDivisionError] on a zero divisor, comparisons
    are strict or large exactly as written, and [float('inf')] is a value of
    its own.  Equalities between computed rationals are stated with [==]
    ([Qeq]) whenever they rely on arithmetic laws, and with [=] when the two
    sides are built by the same operations in the same order. *)

From Stdlib Require Import ZArith QArith Qabs Qround Qpower.
From Stdlib Require Import List String Bool Lia Lqa.
Import ListNotations.

Open Scope Q_scope.

(* ===================================================================== *)
(** * Python values and operations used by the source *)
(* ===================================================================== *)

Module Py.

(** Exceptions the modelled code can raise. *)
Inductive exn : Type :=
| ZeroDivisionError
| KeyError (key : string).

(** A computation either returns a value or raises. *)
Inductive result (A : Type) : Type :=
| Ok (a : A)
| Raise (e : exn).
Arguments Ok {A} a.
Arguments Raise {A} e.

Definition ret {A} (a : A) : result A := Ok a.

Definition bind {A B} (c : result A) (k : A -> result B) : result B :=
  match c with
  | Ok a => k a
  | Raise e => Raise e
  end.

(** A float that may be [float('inf')]. *)
Inductive xfloat : Type :=
| finite (q : Q)
| inf.

(** Comparisons on floats. *)
Definition leb (x y : Q) : bool := Qle_bool x y.
Definition ltb (x y : Q) : bool := negb (Qle_bool y x).
Definition geb (x y : Q) : bool := leb y x.
Definition gtb (x y : Q) : bool := ltb y x.

(** [x / y]: true division, raising on a zero divisor. *)
Definition truediv (x y : Q) : result Q :=
  if Qeq_bool y 0 then Raise ZeroDivisionError else Ok (x / y).

(** [x ** n] for an [int] exponent. *)
Definition pow (x : Q) (n : Z) : result Q :=
  if (n <? 0)%Z && Qeq_bool x 0 then Raise ZeroDivisionError
  else Ok (x ^ n).

(** [sum(xs)]: left to right from [0]. *)
Definition sum (xs : list Q) : Q := fold_left Qplus xs 0.

(** [range(lo, hi)]. *)
Definition range (lo hi : Z) : list Z :=
  map (fun i => (lo + Z.of_nat i)%Z) (seq 0 (Z.to_nat (hi - lo))).

(** [round(x, ndigits)]: to the nearest multiple of [10 ** -ndigits],
    halves to the even neighbour. *)
Definition round_half_even (x : Q) : Z :=
  let f := Qfloor x in
  let d := x - inject_Z f in
  if ltb d (1 # 2) then f
  else if ltb (1 # 2) d then (f + 1)%Z
  else if Z.even f then f else (f + 1)%Z.

Definition round (x : Q) (ndigits : Z) : Q :=
  let s := 10 ^ ndigits in
  inject_Z (round_half_even (x * s)) / s.

(** Dictionaries, in insertion order. *)
Definition dict (V : Type) : Type := list (string * V).

Fixpoint lookup {V} (d : dict V) (k : string) : option V :=
  match d with
  | [] => None
  | (k', v) :: d' => if String.eqb k' k then Some v else lookup d' k
  end.

(** [d.get(k, default)]. *)
Definition get {V} (d : dict V) (k : string) (default : V) : V :=
  match lookup d k with
  | Some v => v
  | None => default
  end.

(** [d[k]]. *)
Definition getitem {V} (d : dict V) (k : string) : result V :=
  match lookup d k with
  | Some v => Ok v
  | None => Raise (KeyError k)
  end.

(** [d[k] = v]: in place when the key is present, appended otherwise. *)
Fixpoint setitem {V} (d : dict V) (k : string) (v : V) : dict V :=
  match d with
  | [] => [(k, v)]
  | (k', v') :: d' =>
      if String.eqb k' k then (k', v) :: d' else (k', v') :: setitem d' k v
  end.

(** [{**a, **b}]. *)
Definition merge {V} (a b : dict V) : dict V :=
  fold_left (fun d kv => setitem d (fst kv) (snd kv)) b a.

(** [d.values()]. *)
Definition values {V} (d : dict V) : list V := map snd d.

(** [k in xs] for a list of strings. *)
Definition contains (xs : list string) (k : string) : bool :=
  existsb (String.eqb k) xs.

End Py.

Import Py.

Declare Scope py_scope.
Delimit Scope py_scope with py.
Notation "x <- c ;; k" := (Py.bind c (fun x => k))
  (at level 61, c at next level, right associativity) : py_scope.
Open Scope py_scope.

(* ===================================================================== *)
(** * The random source of numpy *)
(* ===================================================================== *)

Module Np.

(** The global generator behind [np.random.random()]: the values it is
    going to return, in order, and how many of them have been drawn. *)
Record rng : Type := {
  draws : nat -> Q;
  drawn : nat
}.

(** [np.random.random()]: the next value, and the generator after it. *)
Definition random (g : rng) : Q * rng :=
  (draws g (drawn g), {| draws := draws g; drawn := S (drawn g) |}).

(** What [random()] promises: every value lies in the interval [[0, 1)]. *)
Definition unit_interval (g : rng) : Prop :=
  forall n, 0 <= draws g n /\ draws g n < 1.

(** A generator that alternates between 0.25 and 0.75. *)
Definition alternating : rng :=
  {| draws := fun n => if Nat.even n then 0.25 else 0.75; drawn := 0 |}.

End Np.

(* ===================================================================== *)
(** * v2g_business_analyzer.py *)
(* ===================================================================== *)

Module BusinessAnalyzer.

Open Scope string_scope.

(** [self.dr_rates], a dictionary with three fixed keys:
    '기본요금' (base fee, won/kW/month), '감축실적요금' (reduction fee,
    won/kWh) and '가용용량요금' (capacity fee, won/kW/month). *)
Record DrRates : Type := {
  basic_rate : Q;
  reduction_rate : Q;
  capacity_rate : Q
}.

(** The attributes set by [V2GBusinessAnalyzer.__init__]. *)
Record V2GBusinessAnalyzer : Type := {
  dr_rates : DrRates;
  smp_base_price : Q;
  operation_hours : Q
}.

Definition init : V2GBusinessAnalyzer :=
  {| dr_rates := {| basic_rate := 3000;
                    reduction_rate := 150;
                    capacity_rate := 2000 |};
     smp_base_price := 85;
     operation_hours := 8760 |}.

(** ** calculate_dr_revenue *)

Definition dr_location_factor : dict Q :=
  [ ("수도권", 1.2); ("충청권", 1.0); ("영남권", 1.1);
    ("호남권", 0.9); ("강원권", 0.8); ("제주권", 0.7) ].

Definition seasonal_factors : list Q :=
  [1.3; 1.1; 0.8; 0.7; 0.9; 1.4; 1.5; 1.4; 1.0; 0.8; 1.0; 1.2].

Record DrRevenue : Type := {
  annual_revenue : Q;
  monthly_revenues : list Q;
  basic_fee : Q;
  capacity_fee : Q;
  reduction_fee : Q
}.

(** The loop variables [annual_revenue] and [monthly_revenues]. *)
Record DrLoop : Type := {
  loop_annual : Q;
  loop_monthly : list Q
}.

(** One iteration of [for month, factor in enumerate(seasonal_factors)]. *)
Definition dr_month (self : V2GBusinessAnalyzer)
    (capacity_kw annual_utilization monthly_basic monthly_capacity : Q)
    (st : DrLoop) (factor : Q) : DrLoop :=
  let monthly_utilization := annual_utilization * factor in
  let monthly_reduction := capacity_kw * 30 * 2 * monthly_utilization in
  let monthly_reduction_revenue :=
    monthly_reduction * reduction_rate (dr_rates self) in
  let total_monthly :=
    monthly_basic + monthly_capacity + monthly_reduction_revenue in
  {| loop_annual := loop_annual st + total_monthly;
     loop_monthly := loop_monthly st ++ [total_monthly] |}.

Definition calculate_dr_revenue (self : V2GBusinessAnalyzer)
    (capacity_kw : Q) (location : string) (annual_utilization : Q)
    : DrRevenue :=
  let location_factor := Py.get dr_location_factor location 1.0 in
  let monthly_basic := capacity_kw * basic_rate (dr_rates self) in
  let monthly_capacity :=
    capacity_kw * capacity_rate (dr_rates self) * location_factor in
  let st :=
    fold_left
      (dr_month self capacity_kw annual_utilization
                monthly_basic monthly_capacity)
      seasonal_factors
      {| loop_annual := 0; loop_monthly := [] |} in
  {| annual_revenue := loop_annual st;
     monthly_revenues := loop_monthly st;
     basic_fee := monthly_basic * 12;
     capacity_fee := monthly_capacity * 12;
     reduction_fee :=
       Py.sum (loop_monthly st) - (monthly_basic + monthly_capacity) * 12 |}.


(** ** calculate_investment_costs *)

Definition base_costs : dict Q :=
  [ ("v2g_equipment", 800000); ("infrastructure", 300000);
    ("installation", 200000); ("certification", 100000) ].

Definition additional_costs : dict (dict Q) :=
  [ ("DR",  [ ("system_integration", 150000); ("monitoring", 100000) ]);
    ("SMP", [ ("trading_system", 200000); ("forecast_system", 120000) ]) ].

Definition scale_factor_of (capacity_kw : Q) : Q :=
  if Py.geb capacity_kw 5000 then 0.85
  else if Py.geb capacity_kw 2000 then 0.9
  else if Py.geb capacity_kw 1000 then 0.95
  else 1.0.

Record Costs : Type := {
  equipment_cost : Q;
  additional_cost : Q;
  total_investment : Q;
  cost_breakdown : dict Q;
  scale_factor : Q;
  unit_cost_per_kw : Q
}.

Definition calculate_investment_costs
    (capacity_kw : Q) (business_type : string) : result Costs :=
  let scale_factor := scale_factor_of capacity_kw in
  additional <- Py.getitem additional_costs business_type ;;
  let all_costs := Py.merge base_costs additional in
  let total_base_cost :=
    Py.sum (Py.values base_costs) * capacity_kw * scale_factor in
  let total_additional_cost :=
    Py.sum (Py.values additional) * capacity_kw * scale_factor in
  let cost_breakdown :=
    map (fun kv => (fst kv, snd kv * scale_factor)) all_costs in
  unit_cost <-
    Py.truediv (total_base_cost + total_additional_cost) capacity_kw ;;
  ret {| equipment_cost := total_base_cost;
         additional_cost := total_additional_cost;
         total_investment := total_base_cost + total_additional_cost;
         cost_breakdown := cost_breakdown;
         scale_factor := scale_factor;
         unit_cost_per_kw := unit_cost |}.

(** ** calculate_roi_metrics *)

Record RoiMetrics : Type := {
  roi : Q;
  payback_period : xfloat;
  npv : Q;
  irr : Q;
  annual_net_income : Q
}.

(** [for year in range(1, operation_years + 1): npv += ...]. *)
Fixpoint npv_loop (annual_net_income discount_rate : Q)
    (years : list Z) (npv : Q) : result Q :=
  match years with
  | [] => ret npv
  | year :: years' =>
      p <- Py.pow (1 + discount_rate) year ;;
      term <- Py.truediv annual_net_income p ;;
      npv_loop annual_net_income discount_rate years' (npv + term)
  end.

Definition calculate_roi_metrics
    (annual_revenue investment_cost : Q) (operation_years : Z)
    : result RoiMetrics :=
  let annual_opex := investment_cost * 0.05 in
  let annual_net_income := annual_revenue - annual_opex in
  ratio <-
    Py.truediv
      (annual_net_income * inject_Z operation_years - investment_cost)
      investment_cost ;;
  let roi := ratio * 100 in
  payback_period <-
    (if Py.gtb annual_net_income 0
     then q <- Py.truediv investment_cost annual_net_income ;;
          ret (finite q)
     else ret inf) ;;
  let discount_rate := 0.05 in
  npv <-
    npv_loop annual_net_income discount_rate
             (Py.range 1 (operation_years + 1)) (- investment_cost) ;;
  irr <-
    (if Py.gtb investment_cost 0
     then q <- Py.truediv annual_net_income investment_cost ;;
          ret (q * 100)
     else ret 0) ;;
  ret {| roi := roi;
         payback_period := payback_period;
         npv := npv;
         irr := irr;
         annual_net_income := annual_net_income |}.

(** The default [operation_years=10]. *)
Definition default_operation_years : Z := 10.

(** ** calculate_smp_revenue *)

Definition smp_location_factor : dict Q :=
  [ ("수도권", 1.0); ("충청권", 0.95); ("영남권", 0.98);
    ("호남권", 0.92); ("강원권", 0.88); ("제주권", 0.85) ].

Definition hourly_smp_factors : list Q :=
  [ 0.7; 0.6; 0.6; 0.7; 0.8; 0.9; 1.0; 1.1;
    1.2; 1.1; 1.0; 1.0; 1.1; 1.2; 1.3; 1.4;
    1.5; 1.6; 1.7; 1.5; 1.3; 1.1; 0.9; 0.8 ].

Definition seasonal_demand_factors : list Q :=
  [1.2; 1.1; 0.9; 0.8; 0.7; 1.3; 1.4; 1.3; 1.0; 0.9; 1.0; 1.1].

Record SmpRevenue : Type := {
  smp_annual_revenue : Q;
  smp_monthly_revenues : list Q;
  average_price : Q
}.

(** The variable [monthly_revenue] and the generator, inside a month. *)
Record SmpLoop : Type := {
  loop_revenue : Q;
  loop_rng : Np.rng
}.

(** One iteration of [for hour, hour_factor in enumerate(...)]. *)
Definition smp_hour (self : V2GBusinessAnalyzer)
    (capacity_kw location_smp_factor adjusted_utilization : Q)
    (st : SmpLoop) (hour_factor : Q) : SmpLoop :=
  let (u, g) := Np.random (loop_rng st) in
  if Py.ltb u adjusted_utilization
  then
    let hourly_price :=
      smp_base_price self * hour_factor * location_smp_factor in
    let hourly_revenue := capacity_kw * hourly_price in
    {| loop_revenue := loop_revenue st + hourly_revenue; loop_rng := g |}
  else {| loop_revenue := loop_revenue st; loop_rng := g |}.

(** One iteration of [for day in range(days_in_month)]. *)
Definition smp_day (self : V2GBusinessAnalyzer)
    (capacity_kw location_smp_factor adjusted_utilization : Q)
    (st : SmpLoop) (day : Z) : SmpLoop :=
  fold_left
    (smp_hour self capacity_kw location_smp_factor adjusted_utilization)
    hourly_smp_factors st.

(** The list [monthly_revenues] and the generator, between months. *)
Record SmpMonths : Type := {
  months_revenues : list Q;
  months_rng : Np.rng
}.

(** One iteration of [for month, demand_factor in enumerate(...)]. *)
Definition smp_month (self : V2GBusinessAnalyzer)
    (capacity_kw location_smp_factor annual_utilization : Q)
    (st : SmpMonths) (demand_factor : Q) : SmpMonths :=
  let days_in_month := 30%Z in
  let adjusted_utilization := annual_utilization * demand_factor in
  let m :=
    fold_left
      (smp_day self capacity_kw location_smp_factor adjusted_utilization)
      (Py.range 0 days_in_month)
      {| loop_revenue := 0; loop_rng := months_rng st |} in
  {| months_revenues := months_revenues st ++ [loop_revenue m];
     months_rng := loop_rng m |}.

(** The result, and the generator the call leaves behind. *)
Definition calculate_smp_revenue (self : V2GBusinessAnalyzer)
    (capacity_kw : Q) (location : string) (annual_utilization : Q)
    (g : Np.rng) : result SmpRevenue * Np.rng :=
  let location_smp_factor := Py.get smp_location_factor location 1.0 in
  let st :=
    fold_left
      (smp_month self capacity_kw location_smp_factor annual_utilization)
      seasonal_demand_factors
      {| months_revenues := []; months_rng := g |} in
  let annual_revenue := Py.sum (months_revenues st) in
  (average <-
     (if Py.gtb annual_utilization 0
      then Py.truediv annual_revenue
             (capacity_kw * annual_utilization * operation_hours self)
      else ret 0) ;;
   ret {| smp_annual_revenue := annual_revenue;
          smp_monthly_revenues := months_revenues st;
          average_price := average |},
   months_rng st).

(** The revenue of a month in which every hour of every day is sold. *)
Definition smp_month_cap (self : V2GBusinessAnalyzer)
    (capacity_kw location_smp_factor : Q) : Q :=
  30 * (capacity_kw * (smp_base_price self * location_smp_factor)
        * fold_right Qplus 0 hourly_smp_factors).

(** ** generate_comparison_report *)

Record DrLine : Type := {
  dr_revenue : DrRevenue;
  dr_costs : Costs;
  dr_roi_metrics : RoiMetrics
}.

Record SmpLine : Type := {
  smp_revenue : SmpRevenue;
  smp_costs : Costs;
  smp_roi_metrics : RoiMetrics
}.

(** The returned dictionary, with its keys ['DR'] and ['SMP']. *)
Record ComparisonReport : Type := {
  report_DR : DrLine;
  report_SMP : SmpLine
}.

Definition generate_comparison_report (self : V2GBusinessAnalyzer)
    (capacity_kw : Q) (location : string)
    (utilization_dr utilization_smp : Q)
    (g : Np.rng) : result ComparisonReport * Np.rng :=
  let dr_revenue :=
    calculate_dr_revenue self capacity_kw location utilization_dr in
  match
    (dr_costs <- calculate_investment_costs capacity_kw "DR" ;;
     dr_roi <-
       calculate_roi_metrics (annual_revenue dr_revenue)
         (total_investment dr_costs) default_operation_years ;;
     ret (dr_costs, dr_roi))
  with
  | Raise e => (Raise e, g)
  | Ok (dr_costs, dr_roi) =>
      let (smp, g') :=
        calculate_smp_revenue self capacity_kw location utilization_smp g in
      (smp_revenue <- smp ;;
       smp_costs <- calculate_investment_costs capacity_kw "SMP" ;;
       smp_roi <-
         calculate_roi_metrics (smp_annual_revenue smp_revenue)
           (total_investment smp_costs) default_operation_years ;;
       ret {| report_DR :=
                {| dr_revenue := dr_revenue;
                   dr_costs := dr_costs;
                   dr_roi_metrics := dr_roi |};
              report_SMP :=
                {| smp_revenue := smp_revenue;
                   smp_costs := smp_costs;
                   smp_roi_metrics := smp_roi |} |},
       g')
  end.

End BusinessAnalyzer.

(* ===================================================================== *)
(** * v2g_score_analyzer.py *)
(* ===================================================================== *)

Module ScoreAnalyzer.

Open Scope string_scope.

(** The dataclass [V2GScoreInput]. *)
Record V2GScoreInput : Type := {
  capacity_kw : Q;
  location : string;
  budget_billion : Q;
  risk_preference : string;
  regular_pattern_ratio : Q;
  dr_dispatch_time_ratio : Q;
  charging_spots : Z;
  power_capacity_mva : Q;
  total_ports : Z;
  smart_ocpp_ports : Z;
  v2g_ports : Z;
  brand_type : string;
  soh_under_70_ratio : Q;
  soh_70_85_ratio : Q;
  soh_85_95_ratio : Q;
  soh_over_95_ratio : Q
}.

(** The attributes set by [V2GScoreAnalyzer.__init__]. *)
Record V2GScoreAnalyzer : Type := {
  dr_preferred_regions : list string;
  smp_preferred_regions : list string;
  region_mapping : dict string
}.

Definition init : V2GScoreAnalyzer :=
  {| dr_preferred_regions :=
       ["수도권"; "세종"; "광주"; "대전"; "대구"; "강원권"];
     smp_preferred_regions :=
       ["인천"; "부산"; "울산"; "경상권"; "충청권"; "전라권"; "제주권"];
     region_mapping := [("영남권", "경상권"); ("호남권", "전라권")] |}.

Definition calculate_region_score (self : V2GScoreAnalyzer)
    (location : string) : Z * Z :=
  let mapped_location := Py.get (region_mapping self) location location in
  if Py.contains (dr_preferred_regions self) location
     || Py.contains (dr_preferred_regions self) mapped_location
  then (20, 10)%Z
  else if Py.contains (smp_preferred_regions self) location
          || Py.contains (smp_preferred_regions self) mapped_location
  then (10, 20)%Z
  else (15, 15)%Z.

Definition calculate_scale_score (capacity_kw : Q) : Z * Z :=
  if Py.leb capacity_kw 3000 then (25, 4)%Z
  else if Py.ltb 3000 capacity_kw && Py.leb capacity_kw 8000
  then (17, 13)%Z
  else if Py.ltb 8000 capacity_kw && Py.leb capacity_kw 15000
  then (11, 19)%Z
  else (6, 25)%Z.

Definition risk_scores : dict (Z * Z) :=
  [ ("stable", (12, 0)%Z); ("neutral", (6, 6)%Z); ("high_risk", (0, 12)%Z) ].

Definition calculate_risk_score (risk_preference : string) : Z * Z :=
  Py.get risk_scores risk_preference (6, 6)%Z.

Definition calculate_parking_pattern_score
    (regular_pattern_ratio dr_dispatch_time_ratio : Q) : Q * Q :=
  let weights :=
    if Py.gtb dr_dispatch_time_ratio 0.5 then (0.8, 0.2)
    else if Py.leb 0.25 dr_dispatch_time_ratio
            && Py.leb dr_dispatch_time_ratio 0.5
    then (0.5, 0.5)
    else (0.2, 0.8) in
  let dr_weight := fst weights in
  let smp_weight := snd weights in
  let total_points := 16 in
  let dr_score := total_points * dr_weight in
  let smp_score := total_points * smp_weight in
  (dr_score, smp_score).

Definition calculate_infrastructure_score
    (charging_spots : Z) (power_capacity_mva : Q) : Z * Z :=
  if (charging_spots >? 200)%Z && Py.gtb power_capacity_mva 1.0
  then (1, 5)%Z
  else if ((120 <? charging_spots)%Z && (charging_spots <=? 200)%Z)
          && (Py.ltb 0.6 power_capacity_mva
              && Py.leb power_capacity_mva 1.0)
  then (2, 4)%Z
  else if ((80 <? charging_spots)%Z && (charging_spots <=? 120)%Z)
          && (Py.ltb 0.4 power_capacity_mva
              && Py.leb power_capacity_mva 0.6)
  then (3, 3)%Z
  else if ((40 <? charging_spots)%Z && (charging_spots <=? 80)%Z)
          && (Py.ltb 0.2 power_capacity_mva
              && Py.leb power_capacity_mva 0.4)
  then (4, 2)%Z
  else if (charging_spots <=? 40)%Z && Py.leb power_capacity_mva 0.2
  then (5, 1)%Z
  else (3, 3)%Z.

(** The nested helper [get_ratio_score]. *)
Definition get_ratio_score (ratio : Q) : Z :=
  if Py.gtb ratio 0.6 then 5%Z
  else if Py.ltb 0.4 ratio && Py.leb ratio 0.6 then 4%Z
  else if Py.ltb 0.3 ratio && Py.leb ratio 0.4 then 3%Z
  else if Py.ltb 0.2 ratio && Py.leb ratio 0.3 then 2%Z
  else 1%Z.

Definition calculate_charger_ratio_score
    (total_ports smart_ocpp_ports v2g_ports : Z) : result (Z * Z) :=
  r_dr <-
    (if (total_ports >? 0)%Z
     then Py.truediv (inject_Z smart_ocpp_ports) (inject_Z total_ports)
     else ret 0) ;;
  r_smp <-
    (if (total_ports >? 0)%Z
     then Py.truediv (inject_Z v2g_ports) (inject_Z total_ports)
     else ret 0) ;;
  let dr_score := get_ratio_score r_dr in
  let smp_score := get_ratio_score r_smp in
  ret (dr_score, smp_score).

Definition calculate_brand_score (brand_type : string) : Z * Z :=
  if String.eqb brand_type "b2g_large" then (3, 0)%Z else (1, 3)%Z.

(** The four ratios after the optional renormalisation. *)
Definition normalize_soh (soh_under_70 soh_70_85 soh_85_95 soh_over_95 : Q)
    : result (Q * Q * Q * Q) :=
  let total_ratio := soh_under_70 + soh_70_85 + soh_85_95 + soh_over_95 in
  if Py.gtb total_ratio 0
  then a <- Py.truediv soh_under_70 total_ratio ;;
       b <- Py.truediv soh_70_85 total_ratio ;;
       c <- Py.truediv soh_85_95 total_ratio ;;
       d <- Py.truediv soh_over_95 total_ratio ;;
       ret (a, b, c, d)
  else ret (soh_under_70, soh_70_85, soh_85_95, soh_over_95).

Definition calculate_battery_degradation_score
    (soh_under_70 soh_70_85 soh_85_95 soh_over_95 : Q) : result (Z * Z) :=
  n <- normalize_soh soh_under_70 soh_70_85 soh_85_95 soh_over_95 ;;
  let '(soh_under_70, soh_70_85, soh_85_95, soh_over_95) := n in
  let avg_soh :=
    soh_under_70 * 0.7 + soh_70_85 * 0.775
    + soh_85_95 * 0.9 + soh_over_95 * 0.975 in
  let dr_score := 14%Z in
  let smp_score :=
    if Py.gtb avg_soh 0.95 then 14%Z
    else if Py.ltb 0.85 avg_soh && Py.leb avg_soh 0.95 then 10%Z
    else if Py.ltb 0.70 avg_soh && Py.leb avg_soh 0.85 then 5%Z
    else 0%Z in
  ret (dr_score, smp_score).

Definition calculate_budget_score (budget_billion : Q) : Z * Z :=
  if Py.ltb budget_billion 10 then (10, 0)%Z
  else if Py.leb 10 budget_billion && Py.ltb budget_billion 30
  then (8, 2)%Z
  else if Py.leb 30 budget_billion && Py.ltb budget_billion 80
  then (6, 4)%Z
  else if Py.leb 80 budget_billion && Py.ltb budget_billion 150
  then (5, 5)%Z
  else if Py.leb 150 budget_billion && Py.ltb budget_billion 300
  then (4, 6)%Z
  else if Py.leb 300 budget_billion && Py.ltb budget_billion 500
  then (2, 8)%Z
  else (0, 10)%Z.

(** One entry of [detailed_scores]: [{'dr': .., 'smp': .., 'max': ..}]. *)
Record DetailedScore : Type := {
  dr : Q;
  smp : Q;
  max : Q
}.

(** An entry built from an [int] pair. *)
Definition entry (p : Z * Z) (m : Z) : DetailedScore :=
  {| dr := inject_Z (fst p); smp := inject_Z (snd p); max := inject_Z m |}.

Record TotalScores : Type := {
  total_dr : Q;
  total_smp : Q
}.

Record InputSummary : Type := {
  summary_capacity_kw : Q;
  summary_location : string;
  summary_budget_billion : Q;
  summary_risk_preference : string
}.

Record ScoreResult : Type := {
  total_scores : TotalScores;
  detailed_scores : dict DetailedScore;
  recommendation : string;
  score_gap : Q;
  input_summary : InputSummary
}.

Definition calculate_comprehensive_score (self : V2GScoreAnalyzer)
    (input_data : V2GScoreInput) : result ScoreResult :=
  let region := calculate_region_score self (location input_data) in
  let scale := calculate_scale_score (capacity_kw input_data) in
  let risk := calculate_risk_score (risk_preference input_data) in
  let parking :=
    calculate_parking_pattern_score
      (regular_pattern_ratio input_data)
      (dr_dispatch_time_ratio input_data) in
  let infra :=
    calculate_infrastructure_score
      (charging_spots input_data) (power_capacity_mva input_data) in
  charger <-
    calculate_charger_ratio_score
      (total_ports input_data) (smart_ocpp_ports input_data)
      (v2g_ports input_data) ;;
  let brand := calculate_brand_score (brand_type input_data) in
  battery <-
    calculate_battery_degradation_score
      (soh_under_70_ratio input_data) (soh_70_85_ratio input_data)
      (soh_85_95_ratio input_data) (soh_over_95_ratio input_data) ;;
  let budget := calculate_budget_score (budget_billion input_data) in
  let detailed_scores : dict DetailedScore :=
    [ ("region", entry region 20);
      ("scale", entry scale 25);
      ("risk", entry risk 12);
      ("parking", {| dr := fst parking; smp := snd parking; max := 16 |});
      ("infrastructure", entry infra 5);
      ("charger", entry charger 5);
      ("brand", entry brand 3);
      ("battery", entry battery 14);
      ("budget", entry budget 10) ] in
  let total_dr := Py.sum (map dr (Py.values detailed_scores)) in
  let total_smp := Py.sum (map smp (Py.values detailed_scores)) in
  ret {| total_scores :=
           {| total_dr := Py.round total_dr 1;
              total_smp := Py.round total_smp 1 |};
         detailed_scores := detailed_scores;
         recommendation :=
           if Py.gtb total_dr total_smp then "DR" else "SMP";
         score_gap := Qabs (total_dr - total_smp);
         input_summary :=
           {| summary_capacity_kw := capacity_kw input_data;
              summary_location := location input_data;
              summary_budget_billion := budget_billion input_data;
              summary_risk_preference := risk_preference input_data |} |}.

(** ** Vocabulary for the statements below *)

(** The input matches none of the five joint bands tested, in source
    order, by [calculate_infrastructure_score]. *)
Definition matches_no_band (charging_spots : Z) (power_capacity_mva : Q)
    : Prop :=
  ~ ((200 < charging_spots)%Z /\ 1.0 < power_capacity_mva)
  /\ ~ ((120 < charging_spots <= 200)%Z
        /\ 0.6 < power_capacity_mva /\ power_capacity_mva <= 1.0)
  /\ ~ ((80 < charging_spots <= 120)%Z
        /\ 0.4 < power_capacity_mva /\ power_capacity_mva <= 0.6)
  /\ ~ ((40 < charging_spots <= 80)%Z
        /\ 0.2 < power_capacity_mva /\ power_capacity_mva <= 0.4)
  /\ ~ ((charging_spots <= 40)%Z /\ power_capacity_mva <= 0.2).

(** The same input with another [regular_pattern_ratio]. *)
Definition with_regular_pattern_ratio (input_data : V2GScoreInput)
    (ratio : Q) : V2GScoreInput :=
  {| capacity_kw := capacity_kw input_data;
     location := location input_data;
     budget_billion := budget_billion input_data;
     risk_preference := risk_preference input_data;
     regular_pattern_ratio := ratio;
     dr_dispatch_time_ratio := dr_dispatch_time_ratio input_data;
     charging_spots := charging_spots input_data;
     power_capacity_mva := power_capacity_mva input_data;
     total_ports := total_ports input_data;
     smart_ocpp_ports := smart_ocpp_ports input_data;
     v2g_ports := v2g_ports input_data;
     brand_type := brand_type input_data;
     soh_under_70_ratio := soh_under_70_ratio input_data;
     soh_70_85_ratio := soh_70_85_ratio input_data;
     soh_85_95_ratio := soh_85_95_ratio input_data;
     soh_over_95_ratio := soh_over_95_ratio input_data |}.

(** The unrounded totals [total_dr] and [total_smp] of a result's
    category table. *)
Definition sum_dr (r : ScoreResult) : Q :=
  Py.sum (map dr (Py.values (detailed_scores r))).

Definition sum_smp (r : ScoreResult) : Q :=
  Py.sum (map smp (Py.values (detailed_scores r))).

(** An input on which the two totals tie at 72: unmapped region (15,15),
    5000 kW (17,13), neutral risk (6,6), dispatch ratio 0.3 (8,8),
    100 spots at 0.5 MVA (3,3), half of the ports of each kind (4,4),
    brand "others" (1,3), all batteries above 95% (14,14), budget 200
    (4,6). *)
Definition tie_input : V2GScoreInput :=
  {| capacity_kw := 5000;
     location := "elsewhere";
     budget_billion := 200;
     risk_preference := "neutral";
     regular_pattern_ratio := 0.5;
     dr_dispatch_time_ratio := 0.3;
     charging_spots := 100;
     power_capacity_mva := 0.5;
     total_ports := 10;
     smart_ocpp_ports := 5;
     v2g_ports := 5;
     brand_type := "others";
     soh_under_70_ratio := 0;
     soh_70_85_ratio := 0;
     soh_85_95_ratio := 0;
     soh_over_95_ratio := 1 |}.

End ScoreAnalyzer.

(* ===================================================================== *)
(** * v2g_integrated_analyzer.py *)
(* ===================================================================== *)

Module IntegratedAnalyzer.

Open Scope string_scope.

(** One business line of [revenue_analysis]; the combiner reads only
    [roi_metrics]. *)
Record LineAnalysis : Type := {
  roi_metrics : BusinessAnalyzer.RoiMetrics
}.

(** [revenue_analysis], with its keys ['DR'] and ['SMP']. *)
Record RevenueAnalysis : Type := {
  DR : LineAnalysis;
  SMP : LineAnalysis
}.

Record ComparisonMetrics : Type := {
  dr_roi : Q;
  smp_roi : Q;
  dr_score : Q;
  smp_score : Q;
  dr_weighted : Q;
  smp_weighted : Q;
  roi_gap : Q;
  score_gap : Q;
  weighted_gap : Q
}.

Record Comparison : Type := {
  revenue_recommendation : string;
  score_recommendation : string;
  final_recommendation : string;
  recommendations_match : bool;
  confidence : string;
  metrics : ComparisonMetrics
}.

(** [_create_integrated_comparison]; its parameters [basic_inputs] and
    [score_inputs] are not read. *)
Definition _create_integrated_comparison {BasicInputs ScoreInputs : Type}
    (revenue_analysis : RevenueAnalysis)
    (score_result : ScoreAnalyzer.ScoreResult)
    (basic_inputs : BasicInputs) (score_inputs : ScoreInputs)
    : Comparison :=
  let dr_roi := BusinessAnalyzer.roi (roi_metrics (DR revenue_analysis)) in
  let smp_roi := BusinessAnalyzer.roi (roi_metrics (SMP revenue_analysis)) in
  let revenue_recommendation :=
    if Py.gtb dr_roi smp_roi then "DR" else "SMP" in
  let score_recommendation := ScoreAnalyzer.recommendation score_result in
  let recommendations_match :=
    String.eqb revenue_recommendation score_recommendation in
  let dr_weighted_score :=
    (dr_roi * 0.6)
    + (ScoreAnalyzer.total_dr (ScoreAnalyzer.total_scores score_result)
       * 0.4) in
  let smp_weighted_score :=
    (smp_roi * 0.6)
    + (ScoreAnalyzer.total_smp (ScoreAnalyzer.total_scores score_result)
       * 0.4) in
  let final_recommendation :=
    if Py.gtb dr_weighted_score smp_weighted_score then "DR" else "SMP" in
  let roi_gap := Qabs (dr_roi - smp_roi) in
  let score_gap := ScoreAnalyzer.score_gap score_result in
  let weighted_gap := Qabs (dr_weighted_score - smp_weighted_score) in
  let confidence :=
    if Py.gtb weighted_gap 15 then "매우 높음"
    else if Py.gtb weighted_gap 10 then "높음"
    else if Py.gtb weighted_gap 5 then "보통"
    else "낮음" in
  {| revenue_recommendation := revenue_recommendation;
     score_recommendation := score_recommendation;
     final_recommendation := final_recommendation;
     recommendations_match := recommendations_match;
     confidence := confidence;
     metrics :=
       {| dr_roi := dr_roi;
          smp_roi := smp_roi;
          dr_score :=
            ScoreAnalyzer.total_dr (ScoreAnalyzer.total_scores score_result);
          smp_score :=
            ScoreAnalyzer.total_smp (ScoreAnalyzer.total_scores score_result);
          dr_weighted := dr_weighted_score;
          smp_weighted := smp_weighted_score;
          roi_gap := roi_gap;
          score_gap := score_gap;
          weighted_gap := weighted_gap |} |}.

End IntegratedAnalyzer.

(* ===================================================================== *)
(** * Properties of the Python operations *)
(* ===================================================================== *)

Section PyFacts.

Lemma leb_spec (x y : Q) : reflect (x <= y) (Py.leb x y).
Proof.
  unfold Py.leb. destruct (Qle_bool x y) eqn:E; constructor.
  - now apply Qle_bool_iff.
  - intro H. apply Qle_bool_iff in H. congruence.
Qed.

Lemma ltb_spec (x y : Q) : reflect (x < y) (Py.ltb x y).
Proof.
  unfold Py.ltb. destruct (Qle_bool y x) eqn:E; constructor; simpl.
  - apply Qle_bool_iff in E. now apply Qle_not_lt.
  - apply Qnot_le_lt. intro H. apply Qle_bool_iff in H. congruence.
Qed.

Lemma geb_spec (x y : Q) : reflect (y <= x) (Py.geb x y).
Proof. apply leb_spec. Qed.

Lemma gtb_spec (x y : Q) : reflect (y < x) (Py.gtb x y).
Proof. apply ltb_spec. Qed.

Lemma Ok_inj {A} (a b : A) : Ok a = Ok b -> a = b.
Proof. intro H. now inversion H. Qed.

Lemma truediv_ok (x y : Q) : ~ y == 0 -> Py.truediv x y = Ok (x / y).
Proof.
  intro H. unfold Py.truediv.
  destruct (Qeq_bool y 0) eqn:E; [|reflexivity].
  apply Qeq_bool_iff in E. contradiction.
Qed.

Lemma truediv_zero (x y : Q) :
  y == 0 -> Py.truediv x y = Raise ZeroDivisionError.
Proof.
  intro H. unfold Py.truediv. now rewrite (Qeq_eq_bool _ _ H).
Qed.

Lemma pow_ok (x : Q) (n : Z) : ~ x == 0 -> Py.pow x n = Ok (x ^ n).
Proof.
  intro H. unfold Py.pow.
  destruct (Qeq_bool x 0) eqn:E.
  - apply Qeq_bool_iff in E. contradiction.
  - now rewrite andb_false_r.
Qed.






End PyFacts.

(** Case analysis on the comparisons that guard the conditionals of the
    goal, outermost first, dropping the branches a decided guard excludes. *)
Ltac py_case c :=
  lazymatch c with
  | andb ?a _ => py_case a
  | orb ?a _ => py_case a
  | Py.leb ?x ?y => destruct (leb_spec x y)
  | Py.ltb ?x ?y => destruct (ltb_spec x y)
  | Py.geb ?x ?y => destruct (geb_spec x y)
  | Py.gtb ?x ?y => destruct (gtb_spec x y)
  | (?x <? ?y)%Z => destruct (Z.ltb_spec x y)
  | (?x <=? ?y)%Z => destruct (Z.leb_spec x y)
  | (?x >? ?y)%Z => rewrite (Z.gtb_ltb x y); destruct (Z.ltb_spec y x)
  end.

Ltac py_compare :=
  repeat (match goal with
          | |- context [if ?c then _ else _] => py_case c
          end; cbn [andb orb]).

(* ===================================================================== *)
(** * Properties of the revenue, cost and ROI calculators *)
(* ===================================================================== *)

Section Business.

Import BusinessAnalyzer.
Open Scope string_scope.

(** ** The DR revenue loop *)




(** ** The NPV loop never raises at the fixed discount rate *)

Lemma npv_loop_returns (net : Q) (years : list Z) (npv0 : Q) :
  exists v, npv_loop net 0.05 years npv0 = Ok v.
Proof.
  assert (Hbase : ~ 1 + 0.05 == 0) by (intro H; lra).
  revert npv0. induction years as [|y ys IH]; intro npv0; simpl.
  - now exists npv0.
  - rewrite (pow_ok _ y Hbase). simpl.
    rewrite truediv_ok by (now apply Qpower_not_0).
    simpl. apply IH.
Qed.

(** The ROI calculator returns exactly when the investment is not zero:
    the payback and IRR divisions are guarded, the [roi] division is not. *)
Lemma roi_metrics_returns_iff (annual_revenue investment_cost : Q)
    (operation_years : Z) :
  (exists m,
     calculate_roi_metrics annual_revenue investment_cost operation_years
     = Ok m)
  <-> ~ investment_cost == 0.
Proof.
  unfold calculate_roi_metrics. split.
  - intros [m Hm] Hz. rewrite (truediv_zero _ _ Hz) in Hm. discriminate.
  - intro Hnz. rewrite !(truediv_ok _ investment_cost Hnz). cbn [Py.bind].
    set (net := annual_revenue - investment_cost * 0.05).
    destruct (npv_loop_returns net (Py.range 1 (operation_years + 1))
                (- investment_cost)) as [v Hv].
    destruct (gtb_spec net 0) as [Hpos|_].
    + rewrite truediv_ok by (intro E; lra). cbn [Py.bind Py.ret].
      rewrite Hv. cbn [Py.bind].
      destruct (Py.gtb investment_cost 0); cbn [Py.bind Py.ret];
        eexists; reflexivity.
    + cbn [Py.bind Py.ret]. rewrite Hv. cbn [Py.bind].
      destruct (Py.gtb investment_cost 0); cbn [Py.bind Py.ret];
        eexists; reflexivity.
Qed.

(** ** The merged cost dictionaries *)





End Business.

(* ===================================================================== *)
(** * Revenue, cost and ROI: main results *)
(* ===================================================================== *)

Section BusinessResults.

Import BusinessAnalyzer.
Open Scope string_scope.

(** C1.  With [investment_cost = 0] the ROI calculator does not reach the
    guarded IRR line: the unguarded division of the [roi] line raises
    [ZeroDivisionError], for every annual revenue and every horizon.  No
    sentinel value is returned. *)
Theorem roi_metrics_zero_investment_raises
    (annual_revenue : Q) (operation_years : Z) :
  calculate_roi_metrics annual_revenue 0 operation_years
  = Raise ZeroDivisionError.
Proof. reflexivity. Qed.

(** The same input goes through when only the guarded lines are looked
    at: the IRR expression on its own yields the sentinel [0]. *)
Example irr_line_is_guarded (annual_net_income : Q) :
  (if Py.gtb 0 0
   then q <- Py.truediv annual_net_income 0 ;; ret (q * 100)
   else ret 0) = Ok 0.
Proof. reflexivity. Qed.

(** C4.  With a positive investment and a non-positive annual net income
    (annual revenue minus 5% of the investment), the ROI calculator
    returns, raising nothing, and reports [float('inf')] as the payback
    period. *)
Theorem roi_metrics_payback_unbounded
    (annual_revenue investment_cost : Q) (operation_years : Z)
    (Hinv : 0 < investment_cost)
    (Hnet : annual_revenue - investment_cost * 0.05 <= 0) :
  exists m,
    calculate_roi_metrics annual_revenue investment_cost operation_years
    = Ok m
    /\ payback_period m = inf
    /\ annual_net_income m = annual_revenue - investment_cost * 0.05.
Proof.
  unfold calculate_roi_metrics.
  assert (Hnz : ~ investment_cost == 0) by (intro E; lra).
  rewrite !(truediv_ok _ investment_cost Hnz). simpl.
  destruct (gtb_spec (annual_revenue - investment_cost * 0.05) 0)
    as [Hpos|_]; [lra|]. simpl.
  destruct (npv_loop_returns
              (annual_revenue - investment_cost * 0.05)
              (Py.range 1 (operation_years + 1))
              (- investment_cost)) as [v Hv].
  rewrite Hv. simpl.
  destruct (gtb_spec investment_cost 0) as [_|Hno]; [|lra]. simpl.
  eexists. split; [reflexivity|]. split; reflexivity.
Qed.

Lemma roi_metrics_payback_unbounded_witness :
  exists m,
    calculate_roi_metrics 1000000 100000000 10 = Ok m
    /\ payback_period m = inf
    /\ annual_net_income m = 1000000 - 100000000 * 0.05.
Proof.
  apply (roi_metrics_payback_unbounded 1000000 100000000 10).
  - reflexivity.
  - vm_compute. discriminate.
Defined.


(** The end-to-end scenario of the specification: 1000 kW in "수도권" at
    utilization 0.7.  January is 3,000,000 + 2,400,000 + 8,190,000 and the
    year totals 147,330,000. *)
Example dr_revenue_1000kw_metro :
  let r := calculate_dr_revenue init 1000 "수도권" 0.7 in
  Forall2 Qeq (monthly_revenues r)
    [ 13590000; 12330000; 10440000; 9810000; 11070000; 14220000;
      14850000; 14220000; 11700000; 10440000; 11700000; 12960000 ]
  /\ annual_revenue r == 147330000.
Proof. vm_compute. repeat constructor. Qed.




End BusinessResults.

(* ===================================================================== *)
(** * Properties of the sub-scorers *)
(* ===================================================================== *)

Section Scores.

Import ScoreAnalyzer.

(** The four capacity bands, with the pair each one yields. *)
Lemma scale_score_cases (c : Q) :
  (c <= 3000 /\ calculate_scale_score c = (25, 4)%Z)
  \/ (3000 < c /\ c <= 8000 /\ calculate_scale_score c = (17, 13)%Z)
  \/ (8000 < c /\ c <= 15000 /\ calculate_scale_score c = (11, 19)%Z)
  \/ (15000 < c /\ calculate_scale_score c = (6, 25)%Z).
Proof.
  unfold calculate_scale_score. py_compare; simpl;
    try (left; split; [assumption | reflexivity]);
    try (right; left; repeat split; assumption);
    try (right; right; left; repeat split; assumption);
    try (right; right; right; split; [lra | reflexivity]);
    exfalso; lra.
Qed.

(** The charger ratios are guarded: the scorer always returns. *)
Lemma charger_ratio_score_returns (total smart v2g : Z) :
  exists p, calculate_charger_ratio_score total smart v2g = Ok p.
Proof.
  unfold calculate_charger_ratio_score.
  rewrite (Z.gtb_ltb total 0). destruct (Z.ltb_spec 0 total) as [Hpos|Hle].
  - assert (Hnz : ~ inject_Z total == 0).
    { intro E. assert (Hq : inject_Z 0 < inject_Z total)
        by (rewrite <- Zlt_Qlt; exact Hpos).
      change (inject_Z 0) with 0 in Hq. lra. }
    rewrite !(truediv_ok _ _ Hnz). simpl. eexists. reflexivity.
  - simpl. eexists. reflexivity.
Qed.

(** The renormalisation is guarded: it always returns. *)
Lemma normalize_soh_returns (a b c d : Q) :
  exists n, normalize_soh a b c d = Ok n.
Proof.
  unfold normalize_soh. destruct (gtb_spec (a + b + c + d) 0) as [Hpos|_].
  - assert (Hnz : ~ a + b + c + d == 0) by (intro E; lra).
    rewrite !(truediv_ok _ _ Hnz). simpl. eexists. reflexivity.
  - eexists. reflexivity.
Qed.

Lemma battery_score_returns (a b c d : Q) :
  exists smp_score,
    calculate_battery_degradation_score a b c d = Ok (14%Z, smp_score)
    /\ In smp_score [14; 10; 5; 0]%Z.
Proof.
  unfold calculate_battery_degradation_score.
  destruct (normalize_soh_returns a b c d) as [[[[a' b'] c'] d'] ->].
  cbn [Py.bind Py.ret]. eexists. split; [reflexivity|].
  py_compare; simpl; auto.
Qed.

Lemma parking_score_cases (regular dispatch : Q) :
  calculate_parking_pattern_score regular dispatch = (16 * 0.8, 16 * 0.2)
  \/ calculate_parking_pattern_score regular dispatch = (16 * 0.5, 16 * 0.5)
  \/ calculate_parking_pattern_score regular dispatch = (16 * 0.2, 16 * 0.8).
Proof.
  unfold calculate_parking_pattern_score. py_compare; simpl; auto.
Qed.

(** ** The comprehensive score *)

(** The comprehensive score always returns, and its recommendation is the
    strict comparison of the two unrounded totals. *)
Lemma comprehensive_score_returns (input_data : V2GScoreInput) :
  exists r,
    calculate_comprehensive_score init input_data = Ok r
    /\ recommendation r
       = (if Py.gtb (sum_dr r) (sum_smp r) then "DR" else "SMP")%string.
Proof.
  unfold calculate_comprehensive_score.
  destruct (charger_ratio_score_returns
              (total_ports input_data) (smart_ocpp_ports input_data)
              (v2g_ports input_data)) as [charger ->].
  destruct (battery_score_returns
              (soh_under_70_ratio input_data) (soh_70_85_ratio input_data)
              (soh_85_95_ratio input_data) (soh_over_95_ratio input_data))
    as [battery_smp [-> _]].
  cbn [Py.bind Py.ret]. eexists. split; reflexivity.
Qed.

(** [round] is the identity on integers ... *)
Lemma round_half_even_int (x : Q) (z : Z) :
  x == inject_Z z -> Py.round_half_even x = z.
Proof.
  intro H. unfold Py.round_half_even.
  assert (Hf : Qfloor x = z) by (rewrite H; apply Qfloor_Z).
  rewrite Hf.
  destruct (ltb_spec (x - inject_Z z) (1 # 2)) as [_|Hn]; [reflexivity|].
  exfalso. apply Hn. lra.
Qed.

(** ... hence [round(x, 1)] is the identity on multiples of a tenth. *)
Lemma round_1_tenths (x : Q) (k : Z) :
  x == inject_Z k / 10 -> Py.round x 1 == x.
Proof.
  intro H. unfold Py.round. change (10 ^ 1) with 10.
  rewrite (round_half_even_int (x * 10) k) by (rewrite H; field).
  rewrite H. reflexivity.
Qed.

(** Eight [int] scores and one parking score in tenths add up to tenths. *)
Lemma nine_entries_tenths (z1 z2 z3 : Z) (p : Q) (z5 z6 z7 z8 z9 kp : Z) :
  p == inject_Z kp / 10 ->
  exists k,
    0 + inject_Z z1 + inject_Z z2 + inject_Z z3 + p + inject_Z z5
    + inject_Z z6 + inject_Z z7 + inject_Z z8 + inject_Z z9
    == inject_Z k / 10.
Proof.
  intro Hp.
  exists (10 * (z1 + z2 + z3 + z5 + z6 + z7 + z8 + z9) + kp)%Z.
  rewrite Hp, inject_Z_plus, inject_Z_mult, !inject_Z_plus.
  change (inject_Z 10) with 10. field.
Qed.

Lemma comprehensive_totals_are_tenths (input_data : V2GScoreInput) r :
  calculate_comprehensive_score init input_data = Ok r ->
  (exists k, sum_dr r == inject_Z k / 10)
  /\ (exists k, sum_smp r == inject_Z k / 10).
Proof.
  unfold calculate_comprehensive_score.
  destruct (charger_ratio_score_returns
              (total_ports input_data) (smart_ocpp_ports input_data)
              (v2g_ports input_data)) as [charger ->].
  destruct (battery_score_returns
              (soh_under_70_ratio input_data) (soh_70_85_ratio input_data)
              (soh_85_95_ratio input_data) (soh_over_95_ratio input_data))
    as [battery_smp [-> _]].
  cbn [Py.bind Py.ret]. intro E. apply Ok_inj in E. subst r.
  unfold sum_dr, sum_smp. cbn [detailed_scores].
  unfold Py.sum, Py.values, entry.
  cbn [map fold_left snd dr smp ScoreAnalyzer.max].
  destruct (parking_score_cases (regular_pattern_ratio input_data)
              (dr_dispatch_time_ratio input_data)) as [-> | [-> | ->]];
    cbn [fst snd]; split;
    first [ apply nine_entries_tenths with (kp := 128%Z); reflexivity
          | apply nine_entries_tenths with (kp := 80%Z); reflexivity
          | apply nine_entries_tenths with (kp := 32%Z); reflexivity ].
Qed.

(** The reported [total_scores] are the unrounded totals: rounding to one
    decimal changes nothing. *)
Lemma comprehensive_total_scores_exact (input_data : V2GScoreInput) r :
  calculate_comprehensive_score init input_data = Ok r ->
  total_dr (total_scores r) == sum_dr r
  /\ total_smp (total_scores r) == sum_smp r.
Proof.
  intro E.
  destruct (comprehensive_totals_are_tenths input_data r E)
    as [[kd Hd] [ks Hs]].
  revert E. unfold calculate_comprehensive_score.
  destruct (charger_ratio_score_returns
              (total_ports input_data) (smart_ocpp_ports input_data)
              (v2g_ports input_data)) as [charger ->].
  destruct (battery_score_returns
              (soh_under_70_ratio input_data) (soh_70_85_ratio input_data)
              (soh_85_95_ratio input_data) (soh_over_95_ratio input_data))
    as [battery_smp [-> _]].
  cbn [Py.bind Py.ret]. intro E. apply Ok_inj in E. subst r.
  unfold sum_dr, sum_smp in *.
  cbn [detailed_scores total_scores total_dr total_smp] in *.
  split; eapply round_1_tenths; eassumption.
Qed.

End Scores.

(* ===================================================================== *)
(** * Scoring and combination: main results *)
(* ===================================================================== *)

Section ScoreResults.

Import ScoreAnalyzer.
Open Scope string_scope.

(** C6.  The scale sub-scorer is monotone in capacity: for [c1 <= c2] the
    SMP score at [c2] is at least the one at [c1] and the DR score at [c2]
    is at most the one at [c1]; the bands cut at 3000, 8000 and 15000 kW
    yield (25,4), (17,13), (11,19) and (6,25). *)
Theorem scale_score_monotone (c1 c2 : Q) (H : c1 <= c2) :
  (snd (calculate_scale_score c1) <= snd (calculate_scale_score c2))%Z
  /\ (fst (calculate_scale_score c2) <= fst (calculate_scale_score c1))%Z
  /\ (c1 <= 3000 -> calculate_scale_score c1 = (25, 4)%Z)
  /\ (3000 < c1 /\ c1 <= 8000 -> calculate_scale_score c1 = (17, 13)%Z)
  /\ (8000 < c1 /\ c1 <= 15000 -> calculate_scale_score c1 = (11, 19)%Z)
  /\ (15000 < c1 -> calculate_scale_score c1 = (6, 25)%Z).
Proof.
  destruct (scale_score_cases c1)
    as [[H1 E1] | [[H1 [H1' E1]] | [[H1 [H1' E1]] | [H1 E1]]]];
  destruct (scale_score_cases c2)
    as [[H2 E2] | [[H2 [H2' E2]] | [[H2 [H2' E2]] | [H2 E2]]]];
  rewrite E1, E2; cbn [fst snd];
  try (exfalso; lra);
  (split; [lia | split; [lia |]]);
  repeat split; intros; try reflexivity; exfalso; lra.
Qed.

Lemma scale_score_monotone_witness :
  (snd (calculate_scale_score 2500) <= snd (calculate_scale_score 9000))%Z
  /\ (fst (calculate_scale_score 9000) <= fst (calculate_scale_score 2500))%Z
  /\ (2500 <= 3000 -> calculate_scale_score 2500 = (25, 4)%Z)
  /\ (3000 < 2500 /\ 2500 <= 8000
      -> calculate_scale_score 2500 = (17, 13)%Z)
  /\ (8000 < 2500 /\ 2500 <= 15000
      -> calculate_scale_score 2500 = (11, 19)%Z)
  /\ (15000 < 2500 -> calculate_scale_score 2500 = (6, 25)%Z).
Proof.
  apply (scale_score_monotone 2500 9000). vm_compute. discriminate.
Defined.

(** C8.  The infrastructure sub-scorer is total: on every input it
    returns one of its five pairs; and an input that matches none of the
    five joint bands gets the neutral pair (3,3). *)
Theorem infrastructure_score_fallback
    (charging_spots : Z) (power_capacity_mva : Q)
    (H : matches_no_band charging_spots power_capacity_mva) :
  calculate_infrastructure_score charging_spots power_capacity_mva
  = (3, 3)%Z
  /\ forall spots mva,
       In (calculate_infrastructure_score spots mva)
          [(1, 5); (2, 4); (3, 3); (4, 2); (5, 1)]%Z.
Proof.
  split.
  - destruct H as (B1 & B2 & B3 & B4 & B5).
    unfold calculate_infrastructure_score.
    py_compare; simpl; try reflexivity; exfalso;
      first [ apply B1; split; assumption
            | apply B2; repeat split; assumption
            | apply B3; repeat split; assumption
            | apply B4; repeat split; assumption
            | apply B5; split; assumption ].
  - intros spots mva. unfold calculate_infrastructure_score.
    py_compare; simpl; auto 6.
Qed.

Lemma infrastructure_score_fallback_witness :
  calculate_infrastructure_score 250 0.5 = (3, 3)%Z
  /\ forall spots mva,
       In (calculate_infrastructure_score spots mva)
          [(1, 5); (2, 4); (3, 3); (4, 2); (5, 1)]%Z.
Proof.
  apply (infrastructure_score_fallback 250 0.5).
  unfold matches_no_band.
  repeat split; intro B; decompose [and] B; try lia; lra.
Defined.

(** Gaps between the bands: many spots on a small substation, and few
    spots on a large one, both fall through to (3,3). *)
Example infrastructure_score_gaps :
  calculate_infrastructure_score 250 0.5 = (3, 3)%Z
  /\ calculate_infrastructure_score 30 2.0 = (3, 3)%Z
  /\ calculate_infrastructure_score 250 1.5 = (1, 5)%Z
  /\ calculate_infrastructure_score 30 0.1 = (5, 1)%Z.
Proof. repeat split. Qed.

(** C9.  For every four SOH ratios, whatever their sum, the battery
    sub-scorer returns (the renormalising division is guarded, so nothing
    is raised) and its DR value is 14; the SMP value is 14, 10, 5 or 0. *)
Theorem battery_dr_score_is_14
    (soh_under_70 soh_70_85 soh_85_95 soh_over_95 : Q) :
  exists smp_score,
    calculate_battery_degradation_score
      soh_under_70 soh_70_85 soh_85_95 soh_over_95
    = Ok (14%Z, smp_score)
    /\ In smp_score [14; 10; 5; 0]%Z.
Proof. apply battery_score_returns. Qed.

(** Ratios that sum to 0 are left as they are, ratios that sum to 4 are
    renormalised; DR scores 14 both times. *)
Example battery_score_degenerate_sums :
  calculate_battery_degradation_score 0 0 0 0 = Ok (14, 0)%Z
  /\ calculate_battery_degradation_score 1 1 1 1 = Ok (14, 5)%Z
  /\ calculate_battery_degradation_score (-1) 0 0 0.5 = Ok (14, 0)%Z.
Proof. repeat split. Qed.

(** C10.  The parking-pattern sub-scorer does not read
    [regular_pattern_ratio]: two calls that differ only there return the
    same pair, and so does the comprehensive score on two inputs that
    differ only there; the two values of the pair always add up to 16. *)
Theorem parking_score_ignores_regular_pattern :
  (forall regular1 regular2 dispatch,
     calculate_parking_pattern_score regular1 dispatch
     = calculate_parking_pattern_score regular2 dispatch)
  /\ (forall regular dispatch,
        fst (calculate_parking_pattern_score regular dispatch)
        + snd (calculate_parking_pattern_score regular dispatch) == 16)
  /\ (forall input_data ratio,
        calculate_comprehensive_score init
          (with_regular_pattern_ratio input_data ratio)
        = calculate_comprehensive_score init input_data).
Proof.
  split; [|split].
  - reflexivity.
  - intros regular dispatch.
    destruct (parking_score_cases regular dispatch) as [-> | [-> | ->]];
      reflexivity.
  - reflexivity.
Qed.

(** C7.  The comprehensive score always returns, and its recommendation
    is DR exactly when the DR total is strictly greater than the SMP
    total; it is SMP otherwise, in particular on a tie.  The totals are
    the sums over the nine categories; the reported [total_scores] have the
    same values, so the statement reads the same on them. *)
Theorem comprehensive_recommendation_strict (input_data : V2GScoreInput) :
  exists r,
    calculate_comprehensive_score init input_data = Ok r
    /\ (recommendation r = "DR" <-> sum_smp r < sum_dr r)
    /\ (recommendation r = "SMP" <-> sum_dr r <= sum_smp r)
    /\ (sum_dr r == sum_smp r -> recommendation r = "SMP")
    /\ total_dr (total_scores r) == sum_dr r
    /\ total_smp (total_scores r) == sum_smp r.
Proof.
  destruct (comprehensive_score_returns input_data) as [r [E Hrec]].
  exists r. split; [exact E|].
  destruct (comprehensive_total_scores_exact input_data r E) as [Hd Hs].
  rewrite Hrec.
  destruct (gtb_spec (sum_dr r) (sum_smp r)) as [Hgt | Hle].
  - repeat split; intros; try assumption; try discriminate; exfalso; lra.
  - repeat split; intros; try assumption; try discriminate;
      try reflexivity; try lra; exfalso; lra.
Qed.

(** The tie of C7 is reachable: [tie_input] totals 72 on both sides and
    is recommended SMP. *)
Example comprehensive_tie_goes_to_smp :
  exists r,
    calculate_comprehensive_score init tie_input = Ok r
    /\ sum_dr r == 72 /\ sum_smp r == 72
    /\ total_dr (total_scores r) == 72 /\ total_smp (total_scores r) == 72
    /\ recommendation r = "SMP".
Proof.
  eexists. split; [reflexivity|]. repeat split.
Qed.

End ScoreResults.

Section CombinerResults.

Import IntegratedAnalyzer.
Open Scope string_scope.

(** C5.  The combiner blends each line's ROI (weight 0.6) with its score
    (weight 0.4), recommends DR exactly when the DR blend is strictly the
    greater, and labels the confidence from the absolute gap of the two
    blends: above 15 very high ("매우 높음"), above 10 high ("높음"),
    above 5 moderate ("보통"), otherwise low ("낮음"). *)
Theorem combined_recommendation_weights
    (BasicInputs ScoreInputs : Type)
    (revenue_analysis : RevenueAnalysis)
    (score_result : ScoreAnalyzer.ScoreResult)
    (basic_inputs : BasicInputs) (score_inputs : ScoreInputs) :
  let c :=
    _create_integrated_comparison
      revenue_analysis score_result basic_inputs score_inputs in
  let m := metrics c in
  dr_roi m = BusinessAnalyzer.roi (roi_metrics (DR revenue_analysis))
  /\ smp_roi m = BusinessAnalyzer.roi (roi_metrics (SMP revenue_analysis))
  /\ dr_score m
     = ScoreAnalyzer.total_dr (ScoreAnalyzer.total_scores score_result)
  /\ smp_score m
     = ScoreAnalyzer.total_smp (ScoreAnalyzer.total_scores score_result)
  /\ dr_weighted m = dr_roi m * 0.6 + dr_score m * 0.4
  /\ smp_weighted m = smp_roi m * 0.6 + smp_score m * 0.4
  /\ (final_recommendation c = "DR" <-> smp_weighted m < dr_weighted m)
  /\ (final_recommendation c = "SMP" <-> dr_weighted m <= smp_weighted m)
  /\ weighted_gap m = Qabs (dr_weighted m - smp_weighted m)
  /\ (15 < weighted_gap m -> confidence c = "매우 높음")
  /\ (10 < weighted_gap m /\ weighted_gap m <= 15
      -> confidence c = "높음")
  /\ (5 < weighted_gap m /\ weighted_gap m <= 10 -> confidence c = "보통")
  /\ (weighted_gap m <= 5 -> confidence c = "낮음").
Proof.
  unfold _create_integrated_comparison.
  cbn [metrics dr_roi smp_roi dr_score smp_score dr_weighted smp_weighted
       weighted_gap final_recommendation confidence].
  set (dw := BusinessAnalyzer.roi (roi_metrics (DR revenue_analysis)) * 0.6
             + ScoreAnalyzer.total_dr
                 (ScoreAnalyzer.total_scores score_result) * 0.4).
  set (sw := BusinessAnalyzer.roi (roi_metrics (SMP revenue_analysis)) * 0.6
             + ScoreAnalyzer.total_smp
                 (ScoreAnalyzer.total_scores score_result) * 0.4).
  set (gap := Qabs (dw - sw)).
  do 6 (split; [reflexivity|]).
  split; [|split; [|split; [reflexivity|]]].
  - destruct (gtb_spec dw sw); split; intros;
      try assumption; try reflexivity; try discriminate; exfalso; lra.
  - destruct (gtb_spec dw sw); split; intros;
      try assumption; try reflexivity; try discriminate; try lra;
      exfalso; lra.
  - destruct (gtb_spec gap 15), (gtb_spec gap 10), (gtb_spec gap 5);
      repeat split; intros; try reflexivity; exfalso; lra.
Qed.

End CombinerResults.

(* ===================================================================== *)
(** * Further properties of the sub-scorers *)
(* ===================================================================== *)

Section ScoreExtras.

Import ScoreAnalyzer.
Open Scope string_scope.

(** The seven budget bands, with the pair each one yields. *)
Lemma budget_score_cases (b : Q) :
  (b < 10 /\ calculate_budget_score b = (10, 0)%Z)
  \/ (10 <= b /\ b < 30 /\ calculate_budget_score b = (8, 2)%Z)
  \/ (30 <= b /\ b < 80 /\ calculate_budget_score b = (6, 4)%Z)
  \/ (80 <= b /\ b < 150 /\ calculate_budget_score b = (5, 5)%Z)
  \/ (150 <= b /\ b < 300 /\ calculate_budget_score b = (4, 6)%Z)
  \/ (300 <= b /\ b < 500 /\ calculate_budget_score b = (2, 8)%Z)
  \/ (500 <= b /\ calculate_budget_score b = (0, 10)%Z).
Proof.
  unfold calculate_budget_score. py_compare;
    try (exfalso; lra);
    first
      [ left; split; [assumption | reflexivity]
      | right; left; repeat split; assumption
      | right; right; left; repeat split; assumption
      | right; right; right; left; repeat split; assumption
      | right; right; right; right; left; repeat split; assumption
      | right; right; right; right; right; left; repeat split; assumption
      | right; right; right; right; right; right; split;
          [lra | reflexivity] ].
Qed.

(** The budget sub-scorer splits exactly 10 points, and a larger budget
    never raises the DR share nor lowers the SMP share. *)
Theorem budget_score_split_and_monotone (b1 b2 : Q) (H : b1 <= b2) :
  (fst (calculate_budget_score b1) + snd (calculate_budget_score b1) = 10)%Z
  /\ (fst (calculate_budget_score b2) <= fst (calculate_budget_score b1))%Z
  /\ (snd (calculate_budget_score b1) <= snd (calculate_budget_score b2))%Z.
Proof.
  destruct (budget_score_cases b1)
    as [[? E1] | [[? [? E1]] | [[? [? E1]] | [[? [? E1]] | [[? [? E1]]
       | [[? [? E1]] | [? E1]]]]]]];
  destruct (budget_score_cases b2)
    as [[? E2] | [[? [? E2]] | [[? [? E2]] | [[? [? E2]] | [[? [? E2]]
       | [[? [? E2]] | [? E2]]]]]]];
  rewrite E1, E2; cbn [fst snd];
  try (exfalso; lra); repeat split; lia.
Qed.

Lemma budget_score_split_and_monotone_witness :
  (fst (calculate_budget_score 15) + snd (calculate_budget_score 15) = 10)%Z
  /\ (fst (calculate_budget_score 200) <= fst (calculate_budget_score 15))%Z
  /\ (snd (calculate_budget_score 15) <= snd (calculate_budget_score 200))%Z.
Proof.
  apply (budget_score_split_and_monotone 15 200). vm_compute. discriminate.
Defined.

(** A region alias scores as the region it stands for (resolving the alias
    first changes nothing), and every location, known or not, splits
    exactly 30 points. *)
Theorem region_score_alias_and_split (location : string) :
  calculate_region_score init
    (Py.get (region_mapping init) location location)
  = calculate_region_score init location
  /\ (fst (calculate_region_score init location)
      + snd (calculate_region_score init location) = 30)%Z.
Proof.
  split.
  - unfold Py.get. cbn [region_mapping init Py.lookup].
    destruct (String.eqb_spec "영남권" location) as [<- | _];
      [reflexivity|].
    destruct (String.eqb_spec "호남권" location) as [<- | _];
      reflexivity.
  - unfold calculate_region_score.
    destruct (_ || _); [reflexivity|].
    destruct (_ || _); reflexivity.
Qed.

(** The risk sub-scorer splits exactly 12 points, and every tag other than
    'stable' and 'high_risk' is scored like 'neutral'. *)
Theorem risk_score_split_and_default (risk_preference : string) :
  (fst (calculate_risk_score risk_preference)
   + snd (calculate_risk_score risk_preference) = 12)%Z
  /\ (risk_preference = "stable" \/ risk_preference = "high_risk"
      \/ calculate_risk_score risk_preference
         = calculate_risk_score "neutral").
Proof.
  unfold calculate_risk_score, Py.get. cbn [risk_scores Py.lookup].
  destruct (String.eqb_spec "stable" risk_preference) as [<- | _];
    [split; [reflexivity | now left]|].
  destruct (String.eqb_spec "neutral" risk_preference) as [<- | _];
    [split; [reflexivity | now right; right]|].
  destruct (String.eqb_spec "high_risk" risk_preference) as [<- | _];
    [split; [reflexivity | now right; left]|].
  split; [reflexivity | now right; right].
Qed.

(** ** Charger ratios *)

Lemma ratio_score_cases (r : Q) :
  (r <= 0.2 /\ get_ratio_score r = 1%Z)
  \/ (0.2 < r /\ r <= 0.3 /\ get_ratio_score r = 2%Z)
  \/ (0.3 < r /\ r <= 0.4 /\ get_ratio_score r = 3%Z)
  \/ (0.4 < r /\ r <= 0.6 /\ get_ratio_score r = 4%Z)
  \/ (0.6 < r /\ get_ratio_score r = 5%Z).
Proof.
  unfold get_ratio_score. py_compare;
    try (exfalso; lra);
    first
      [ left; split; [lra | reflexivity]
      | right; left; repeat split; assumption
      | right; right; left; repeat split; assumption
      | right; right; right; left; repeat split; assumption
      | right; right; right; right; split; [assumption | reflexivity] ].
Qed.

Lemma ratio_score_monotone (r1 r2 : Q) :
  r1 <= r2 ->
  (1 <= get_ratio_score r1 <= get_ratio_score r2)%Z
  /\ (get_ratio_score r2 <= 5)%Z.
Proof.
  intro H.
  destruct (ratio_score_cases r1)
    as [[? E1] | [[? [? E1]] | [[? [? E1]] | [[? [? E1]] | [? E1]]]]];
  destruct (ratio_score_cases r2)
    as [[? E2] | [[? [? E2]] | [[? [? E2]] | [[? [? E2]] | [? E2]]]]];
  rewrite E1, E2; try (exfalso; lra); lia.
Qed.

(** With at least one port the two ratios are computed by a division that
    cannot fail. *)
Lemma charger_ratio_score_with_ports (total smart v2g : Z) :
  (0 < total)%Z ->
  calculate_charger_ratio_score total smart v2g
  = Ok (get_ratio_score (inject_Z smart / inject_Z total),
        get_ratio_score (inject_Z v2g / inject_Z total)).
Proof.
  intro Hpos. unfold calculate_charger_ratio_score.
  rewrite (Z.gtb_ltb total 0).
  destruct (Z.ltb_spec 0 total) as [_|Hle]; [|lia].
  assert (Hnz : ~ inject_Z total == 0).
  { intro E. assert (Hq : inject_Z 0 < inject_Z total)
      by (rewrite <- Zlt_Qlt; exact Hpos).
    change (inject_Z 0) with 0 in Hq. lra. }
  rewrite !(truediv_ok _ _ Hnz). reflexivity.
Qed.

(** Without ports (a total of zero, or a negative one) no ratio is
    computed and both lines get the lowest score, whatever the port counts
    say. *)
Theorem charger_ratio_score_without_ports (total smart v2g : Z)
    (H : (total <= 0)%Z) :
  calculate_charger_ratio_score total smart v2g = Ok (1, 1)%Z.
Proof.
  unfold calculate_charger_ratio_score. rewrite (Z.gtb_ltb total 0).
  destruct (Z.ltb_spec 0 total) as [Hpos|_]; [lia|]. reflexivity.
Qed.

Lemma charger_ratio_score_without_ports_witness :
  calculate_charger_ratio_score 0 60 30 = Ok (1, 1)%Z.
Proof.
  apply (charger_ratio_score_without_ports 0 60 30). lia.
Defined.

(** With a fixed positive number of ports, more smart/OCPP ports never
    lower the DR score and leave the SMP score unchanged; both scores stay
    between 1 and 5. *)
Theorem charger_dr_score_monotone (total smart smart' v2g : Z)
    (Htotal : (0 < total)%Z) (Hsmart : (smart <= smart')%Z) :
  exists d d' s,
    calculate_charger_ratio_score total smart v2g = Ok (d, s)
    /\ calculate_charger_ratio_score total smart' v2g = Ok (d', s)
    /\ (1 <= d <= d')%Z /\ (d' <= 5)%Z /\ (1 <= s <= 5)%Z.
Proof.
  rewrite !(charger_ratio_score_with_ports _ _ _ Htotal).
  do 3 eexists. split; [reflexivity|]. split; [reflexivity|].
  assert (Hq : inject_Z smart / inject_Z total
               <= inject_Z smart' / inject_Z total).
  { unfold Qdiv. apply Qmult_le_compat_r.
    - now rewrite <- Zle_Qle.
    - apply Qinv_le_0_compat. change 0 with (inject_Z 0).
      rewrite <- Zle_Qle. lia. }
  destruct (ratio_score_monotone _ _ Hq) as [[? ?] ?].
  destruct (ratio_score_monotone _ _
              (Qle_refl (inject_Z v2g / inject_Z total))) as [[? ?] ?].
  repeat split; assumption.
Qed.

Lemma charger_dr_score_monotone_witness :
  exists d d' s,
    calculate_charger_ratio_score 100 30 30 = Ok (d, s)
    /\ calculate_charger_ratio_score 100 60 30 = Ok (d', s)
    /\ (1 <= d <= d')%Z /\ (d' <= 5)%Z /\ (1 <= s <= 5)%Z.
Proof.
  apply (charger_dr_score_monotone 100 30 60 30); lia.
Defined.

(** ** Battery degradation *)

(** With a positive sum the ratios are renormalised and the SMP score is
    read off the weighted average. *)
Lemma battery_score_normalised (a b c d : Q) :
  0 < a + b + c + d ->
  let t := a + b + c + d in
  let avg := a / t * 0.7 + b / t * 0.775 + c / t * 0.9 + d / t * 0.975 in
  calculate_battery_degradation_score a b c d
  = Ok (14%Z,
        if Py.gtb avg 0.95 then 14%Z
        else if Py.ltb 0.85 avg && Py.leb avg 0.95 then 10%Z
        else if Py.ltb 0.70 avg && Py.leb avg 0.85 then 5%Z
        else 0%Z).
Proof.
  intros Hpos t avg. unfold calculate_battery_degradation_score, normalize_soh.
  fold t. destruct (gtb_spec t 0) as [_|Hn]; [|contradiction].
  assert (Hnz : ~ t == 0) by (intro E; unfold t in E; lra).
  rewrite !(truediv_ok _ _ Hnz). reflexivity.
Qed.

Lemma battery_band_Qeq (x y : Q) :
  x == y ->
  (if Py.gtb x 0.95 then 14%Z
   else if Py.ltb 0.85 x && Py.leb x 0.95 then 10%Z
   else if Py.ltb 0.70 x && Py.leb x 0.85 then 5%Z
   else 0%Z)
  = (if Py.gtb y 0.95 then 14%Z
     else if Py.ltb 0.85 y && Py.leb y 0.95 then 10%Z
     else if Py.ltb 0.70 y && Py.leb y 0.85 then 5%Z
     else 0%Z).
Proof.
  intro E. py_compare; try reflexivity; exfalso; lra.
Qed.

(** The battery score depends on the proportions only: scaling all four
    ratios by the same positive factor (percentages instead of fractions,
    vehicle counts instead of shares) does not change it. *)
Theorem battery_score_scale_invariant (k a b c d : Q)
    (Hk : 0 < k) (Hsum : 0 < a + b + c + d) :
  calculate_battery_degradation_score (k * a) (k * b) (k * c) (k * d)
  = calculate_battery_degradation_score a b c d.
Proof.
  assert (Hksum : 0 < k * a + k * b + k * c + k * d).
  { assert (E : k * a + k * b + k * c + k * d == k * (a + b + c + d))
      by ring.
    rewrite E. now apply Qmult_lt_0_compat. }
  rewrite (battery_score_normalised _ _ _ _ Hksum).
  rewrite (battery_score_normalised _ _ _ _ Hsum).
  cbv zeta. f_equal. f_equal. apply battery_band_Qeq.
  field. split; intro E; lra.
Qed.

Lemma battery_score_scale_invariant_witness :
  calculate_battery_degradation_score
    (100 * 0.1) (100 * 0.3) (100 * 0.5) (100 * 0.1)
  = calculate_battery_degradation_score 0.1 0.3 0.5 0.1.
Proof.
  apply (battery_score_scale_invariant 100 0.1 0.3 0.5 0.1);
    reflexivity.
Defined.

(** With non-negative ratios, the SMP line gets the full 14 battery points
    only when the batteries above 95% SOH outnumber all the others two to
    one. *)
Theorem battery_full_marks_need_two_thirds (a b c d : Q)
    (Ha : 0 <= a) (Hb : 0 <= b) (Hc : 0 <= c) (Hd : 0 <= d)
    (Hfull : calculate_battery_degradation_score a b c d
             = Ok (14, 14)%Z) :
  2 * (a + b + c) < d.
Proof.
  destruct (Qlt_le_dec 0 (a + b + c + d)) as [Hpos | Hzero].
  - rewrite (battery_score_normalised _ _ _ _ Hpos) in Hfull.
    cbv zeta in Hfull.
    set (t := a + b + c + d) in *.
    set (avg := a / t * 0.7 + b / t * 0.775 + c / t * 0.9 + d / t * 0.975)
      in *.
    assert (Havg : 0.95 < avg).
    { revert Hfull. py_compare; intro Hfull; try assumption;
        apply Ok_inj in Hfull; discriminate. }
    assert (E : avg * t == a * 0.7 + b * 0.775 + c * 0.9 + d * 0.975).
    { subst avg. field. intro E. lra. }
    assert (Hmul : 0.95 * t < avg * t) by (now apply Qmult_lt_compat_r).
    rewrite E in Hmul. subst t. lra.
  - exfalso. revert Hfull.
    unfold calculate_battery_degradation_score, normalize_soh.
    destruct (gtb_spec (a + b + c + d) 0) as [Hpos|_]; [lra|].
    cbn [Py.bind Py.ret].
    py_compare; intro Hfull; apply Ok_inj in Hfull;
      try discriminate; lra.
Qed.

Lemma battery_full_marks_need_two_thirds_witness :
  2 * (0 + 0 + 0.2) < 0.8.
Proof.
  apply (battery_full_marks_need_two_thirds 0 0 0.2 0.8);
    try (vm_compute; discriminate). reflexivity.
Defined.

(** ** Bounds of the categories *)

Lemma Zbounds_Q (lo hi z : Z) :
  (lo <= z <= hi)%Z -> inject_Z lo <= inject_Z z /\ inject_Z z <= inject_Z hi.
Proof. intros [H1 H2]. split; now rewrite <- Zle_Qle. Qed.

Lemma region_score_bounds (location : string) :
  (10 <= fst (calculate_region_score init location) <= 20)%Z
  /\ (10 <= snd (calculate_region_score init location) <= 20)%Z.
Proof.
  unfold calculate_region_score.
  destruct (_ || _); [cbn; lia|]. destruct (_ || _); cbn; lia.
Qed.

Lemma scale_score_bounds (c : Q) :
  (6 <= fst (calculate_scale_score c) <= 25)%Z
  /\ (4 <= snd (calculate_scale_score c) <= 25)%Z.
Proof.
  destruct (scale_score_cases c)
    as [[? E] | [[? [? E]] | [[? [? E]] | [? E]]]]; rewrite E; cbn; lia.
Qed.

Lemma risk_score_bounds (tag : string) :
  (0 <= fst (calculate_risk_score tag) <= 12)%Z
  /\ (0 <= snd (calculate_risk_score tag) <= 12)%Z.
Proof.
  unfold calculate_risk_score, Py.get. cbn [risk_scores Py.lookup].
  repeat (destruct (String.eqb _ tag); [cbn; lia|]). cbn; lia.
Qed.

Lemma infrastructure_score_bounds (spots : Z) (mva : Q) :
  (1 <= fst (calculate_infrastructure_score spots mva) <= 5)%Z
  /\ (1 <= snd (calculate_infrastructure_score spots mva) <= 5)%Z.
Proof.
  unfold calculate_infrastructure_score. py_compare; cbn; lia.
Qed.

Lemma brand_score_bounds (brand : string) :
  (1 <= fst (calculate_brand_score brand) <= 3)%Z
  /\ (0 <= snd (calculate_brand_score brand) <= 3)%Z.
Proof.
  unfold calculate_brand_score. destruct (String.eqb _ _); cbn; lia.
Qed.

Lemma budget_score_bounds (b : Q) :
  (0 <= fst (calculate_budget_score b) <= 10)%Z
  /\ (0 <= snd (calculate_budget_score b) <= 10)%Z.
Proof.
  destruct (budget_score_cases b)
    as [[? E] | [[? [? E]] | [[? [? E]] | [[? [? E]] | [[? [? E]]
       | [[? [? E]] | [? E]]]]]]]; rewrite E; cbn; lia.
Qed.

Lemma charger_ratio_score_bounds (total smart v2g : Z) :
  exists p,
    calculate_charger_ratio_score total smart v2g = Ok p
    /\ (1 <= fst p <= 5)%Z /\ (1 <= snd p <= 5)%Z.
Proof.
  destruct (Z.ltb_spec 0 total) as [Hpos | Hle].
  - rewrite (charger_ratio_score_with_ports _ _ _ Hpos).
    eexists. split; [reflexivity|]. cbn [fst snd].
    destruct (ratio_score_monotone _ _
                (Qle_refl (inject_Z smart / inject_Z total))) as [[? ?] ?].
    destruct (ratio_score_monotone _ _
                (Qle_refl (inject_Z v2g / inject_Z total))) as [[? ?] ?].
    lia.
  - rewrite (charger_ratio_score_without_ports _ _ _ Hle).
    eexists. split; [reflexivity|]. cbn. lia.
Qed.

Lemma parking_score_bounds (regular dispatch : Q) :
  3.2 <= fst (calculate_parking_pattern_score regular dispatch) <= 12.8
  /\ 3.2 <= snd (calculate_parking_pattern_score regular dispatch) <= 12.8.
Proof.
  destruct (parking_score_cases regular dispatch) as [-> | [-> | ->]];
    cbn [fst snd]; lra.
Qed.

(** Every category entry of a comprehensive score lies between 0 and the
    category maximum, the nine maxima add up to 110, and neither total can
    reach it: DR stays within [36.2, 106.8] and SMP within [19.2, 106.8]
    (the parking category hands out at most 12.8 of its 16 points). *)
Theorem comprehensive_score_within_maxima (input_data : V2GScoreInput) :
  exists r,
    calculate_comprehensive_score init input_data = Ok r
    /\ Forall (fun e => 0 <= dr e <= ScoreAnalyzer.max e
                        /\ 0 <= smp e <= ScoreAnalyzer.max e)
         (Py.values (detailed_scores r))
    /\ Py.sum (map ScoreAnalyzer.max (Py.values (detailed_scores r))) == 110
    /\ 36.2 <= sum_dr r <= 106.8
    /\ 19.2 <= sum_smp r <= 106.8.
Proof.
  unfold calculate_comprehensive_score.
  destruct (charger_ratio_score_bounds
              (total_ports input_data) (smart_ocpp_ports input_data)
              (v2g_ports input_data)) as [charger [-> [Hcd Hcs]]].
  destruct (battery_score_returns
              (soh_under_70_ratio input_data) (soh_70_85_ratio input_data)
              (soh_85_95_ratio input_data) (soh_over_95_ratio input_data))
    as [battery_smp [-> Hbat]].
  cbn [Py.bind Py.ret]. eexists. split; [reflexivity|].
  unfold sum_dr, sum_smp. cbn [detailed_scores].
  unfold Py.sum, Py.values, entry.
  cbn [map fold_left snd fst dr smp ScoreAnalyzer.max].
  destruct (region_score_bounds (location input_data)) as [R1 R2].
  destruct (scale_score_bounds (capacity_kw input_data)) as [S1 S2].
  destruct (risk_score_bounds (risk_preference input_data)) as [K1 K2].
  destruct (parking_score_bounds (regular_pattern_ratio input_data)
              (dr_dispatch_time_ratio input_data)) as [P1 P2].
  destruct (infrastructure_score_bounds (charging_spots input_data)
              (power_capacity_mva input_data)) as [I1 I2].
  destruct (brand_score_bounds (brand_type input_data)) as [B1 B2].
  destruct (budget_score_bounds (budget_billion input_data)) as [G1 G2].
  assert (T : (0 <= battery_smp <= 14)%Z)
    by (cbn [In] in Hbat; intuition lia).
  apply Zbounds_Q in R1, R2, S1, S2, K1, K2, I1, I2, B1, B2, G1, G2,
                     Hcd, Hcs, T.
  repeat match goal with
  | |- context [inject_Z ?z] =>
      lazymatch z with
      | Zpos _ => fail
      | Z0 => fail
      | _ => let q := fresh "q" in set (q := inject_Z z) in *; clearbody q
      end
  end.
  unfold inject_Z in *.
  repeat split; try lra.
  repeat constructor; cbn [dr smp ScoreAnalyzer.max]; lra.
Qed.
End ScoreExtras.
